(** * The conversation contract of [frontend/src/types.ts]

    The repository's source is one TypeScript declaration file: the string
    union [Role], the interface [ChatMessage] and the interface
    [UploadResponse].  This development embeds the three declarations twice,

    - as Rocq types (an enumeration per closed union of string literals, a
      record per interface), and
    - as predicates over untyped JavaScript values, which is what the
      declarations mean at run time, where TypeScript's types are erased;

    and then states the boundary validators that the specification asks for
    on top of them. *)

From Stdlib Require Import Floats ZArith.
From stdpp Require Import gmap strings list.

Set Warnings "-register-all".

(** ** Numbers

    TypeScript's [number] is an IEEE-754 binary64 value; Rocq's primitive
    [float] is the same type. *)

Definition number : Set := float.

(** [Number.isInteger]: finite and without a fractional part.  A finite
    double is [m * 2^e]; it is integral when [e >= 0] or [2^(-e)] divides
    [m].  Both zeros are integers, NaN and the infinities are not. *)
Definition Number_isInteger (x : number) : bool :=
  match Prim2SF x with
  | S754_zero _ => true
  | S754_finite _ m e => (0 <=? e)%Z || (Z.pos m mod 2 ^ (- e) =? 0)%Z
  | S754_infinity _ | S754_nan => false
  end.

(** A count is "a non-negative integer": [Number.isInteger(n) && n >= 0]. *)
Definition isCount (n : number) : bool :=
  Number_isInteger n && (0 <=? n)%float.

(** ** The declared types *)

(** [export type Role = "user" | "bot" | "system";] *)
Module Role.
Inductive t : Set := user | bot | system.

(** The string literal each member is written as. *)
Definition literal (r : t) : string :=
  match r with
  | user => "user"
  | bot => "bot"
  | system => "system"
  end.

(** Reading a string as a member of the union. *)
Definition of_string (s : string) : option t :=
  if decide (s = "user") then Some user
  else if decide (s = "bot") then Some bot
  else if decide (s = "system") then Some system
  else None.
End Role.

(** The anonymous union of [ChatMessage.type]:
    ["apology" | "rule-answer" | "system"]. *)
Module MessageType.
Inductive t : Set := apology | rule_answer | system.

Definition literal (k : t) : string :=
  match k with
  | apology => "apology"
  | rule_answer => "rule-answer"
  | system => "system"
  end.

Definition of_string (s : string) : option t :=
  if decide (s = "apology") then Some apology
  else if decide (s = "rule-answer") then Some rule_answer
  else if decide (s = "system") then Some system
  else None.
End MessageType.

(** [export interface ChatMessage { role: Role; content: string;
    type?: "apology" | "rule-answer" | "system"; }] *)
Record ChatMessage : Set := {
  role : Role.t;
  content : string;
  type : option MessageType.t
}.

(** [export interface UploadResponse { message: string;
    casesIndexed: number; }] *)
Record UploadResponse : Set := {
  message : string;
  casesIndexed : number
}.

(** ** Values at run time

    What crosses the boundary is an untyped JavaScript value (the parsed
    wire form, which has no [undefined]): null, a boolean, a number, a
    string, an array or an object, an object being a finite map from
    property names to values. *)
Inductive value : Type :=
  | VNull
  | VBool (b : bool)
  | VNumber (n : number)
  | VString (s : string)
  | VArray (items : list value)
  | VObject (fields : gmap string value).

(** Property access [v.k]; a value that is not an object has no property. *)
Definition field (k : string) (v : value) : option value :=
  match v with
  | VObject o => o !! k
  | _ => None
  end.

(** The object literal [{ role, content, type? }] of a [ChatMessage]: the
    optional property is left out when the tag is absent. *)
Definition ChatMessage_toJSON (m : ChatMessage) : value :=
  VObject
    (<["role" := VString (Role.literal (role m))]>
       (<["content" := VString (content m)]>
          match type m with
          | Some k => {["type" := VString (MessageType.literal k)]}
          | None => ∅
          end)).

(** The object literal [{ message, casesIndexed }]. *)
Definition UploadResponse_toJSON (u : UploadResponse) : value :=
  VObject
    (<["message" := VString (message u)]>
       {["casesIndexed" := VNumber (casesIndexed u)]}).

(** ** The declarations as predicates on values

    TypeScript types are structural: a value has an interface type when it is
    an object whose declared properties have the declared types; further
    properties are ignored, and an optional property may be missing. *)

Definition isRole (v : value) : bool :=
  match v with
  | VString s => bool_decide (is_Some (Role.of_string s))
  | _ => false
  end.

Definition isMessageType (v : value) : bool :=
  match v with
  | VString s => bool_decide (is_Some (MessageType.of_string s))
  | _ => false
  end.

Definition isString (v : value) : bool :=
  match v with VString _ => true | _ => false end.

Definition isNumber (v : value) : bool :=
  match v with VNumber _ => true | _ => false end.

(** A required property [k: T]. *)
Definition required (k : string) (T : value → bool) (v : value) : bool :=
  match field k v with
  | Some x => T x
  | None => false
  end.

(** An optional property [k?: T]. *)
Definition optional (k : string) (T : value → bool) (v : value) : bool :=
  match field k v with
  | Some x => T x
  | None => true
  end.

Definition isObject (v : value) : bool :=
  match v with VObject _ => true | _ => false end.

Definition isChatMessage (v : value) : bool :=
  isObject v
  && required "role" isRole v
  && required "content" isString v
  && optional "type" isMessageType v.

Definition isUploadResponse (v : value) : bool :=
  isObject v
  && required "message" isString v
  && required "casesIndexed" isNumber v.

(** The invariant the specification attaches to [UploadResponse]: the
    [casesIndexed] property holds a count. *)
Definition countInvariant (v : value) : Prop :=
  ∃ n, field "casesIndexed" v = Some (VNumber n) ∧ isCount n = true.

(** ** The boundary validators *)

(** The error taxonomy of the contract boundary. *)
Inductive ValidationError : Set :=
  | InvalidRole
  | InvalidType
  | MissingContent
  | MissingMessage
  | InvalidCount.

(** The outcome of a validation: the typed value, or a rejection.  The
    specification attaches each error to a condition of its own ("fails with
    [InvalidRole] when ...; fails with [InvalidType] when ...") and fixes no
    precedence between the conditions, so a rejection carries every error
    whose condition holds, in the order the specification lists them. *)
Inductive Validated (A : Type) : Type :=
  | Valid (a : A)
  | Rejected (errors : list ValidationError).
Arguments Valid {A} a.
Arguments Rejected {A} errors.

(** "Fails with [e]". *)
Definition failsWith {A : Type} (r : Validated A) (e : ValidationError) : Prop :=
  match r with
  | Valid _ => False
  | Rejected errors => e ∈ errors
  end.

Definition succeeds {A : Type} (r : Validated A) : Prop :=
  match r with
  | Valid _ => True
  | Rejected _ => False
  end.

(** [violated e o]: the error [e] when reading a property produced nothing. *)
Definition violated {A : Type} (e : ValidationError) (o : option A)
  : list ValidationError :=
  match o with
  | Some _ => []
  | None => [e]
  end.

(** [role] must be present and be exactly one of the three literals. *)
Definition readRole (input : value) : option Role.t :=
  match field "role" input with
  | Some (VString s) => Role.of_string s
  | _ => None
  end.

(** [content] must be present and be text; the empty string is text. *)
Definition readContent (input : value) : option string :=
  match field "content" input with
  | Some (VString s) => Some s
  | _ => None
  end.

(** [type], if present, must be one of the three literals: [Some None] when
    the property is absent, [Some (Some k)] when it holds a literal, [None]
    when it is present and holds anything else. *)
Definition readType (input : value) : option (option MessageType.t) :=
  match field "type" input with
  | None => Some None
  | Some (VString s) => Some <$> MessageType.of_string s
  | Some _ => None
  end.

(** Modelled from the spec: [validateChatMessage] is not among the
    repository's sources, which declare the types only.  Following section
    4.1: the input is an arbitrary value; on success the result is a
    [ChatMessage] with exactly the recognised properties (anything else in
    the input is dropped); otherwise the input is rejected with the errors of
    the violated constraints. *)
Definition validateChatMessage (input : value) : Validated ChatMessage :=
  match readRole input, readType input, readContent input with
  | Some r, Some k, Some c => Valid {| role := r; content := c; type := k |}
  | r, k, c =>
      Rejected (violated InvalidRole r ++ violated InvalidType k
                ++ violated MissingContent c)
  end.

(** [casesIndexed] must be an integer [>= 0]. *)
Definition readCount (input : value) : option number :=
  match field "casesIndexed" input with
  | Some (VNumber n) => if isCount n then Some n else None
  | _ => None
  end.

(** [message] must be text. *)
Definition readMessage (input : value) : option string :=
  match field "message" input with
  | Some (VString s) => Some s
  | _ => None
  end.

(** Modelled from the spec: [validateUploadResponse] is not among the
    repository's sources either.  Following section 4.1: [message] must be
    text and [casesIndexed] an integer [>= 0]; the errors are [InvalidCount]
    and [MissingMessage]. *)
Definition validateUploadResponse (input : value) : Validated UploadResponse :=
  match readCount input, readMessage input with
  | Some n, Some s => Valid {| message := s; casesIndexed := n |}
  | n, s => Rejected (violated InvalidCount n ++ violated MissingMessage s)
  end.

(** The conditions under which the specification says each error is raised,
    stated on the input alone. *)

(** "[role] is missing or not in the closed set". *)
Definition roleMissingOrInvalid (input : value) : Prop :=
  ∀ r : Role.t, field "role" input ≠ Some (VString (Role.literal r)).

(** "[type] is present but not in its closed set". *)
Definition typePresentButInvalid (input : value) : Prop :=
  ∃ x, field "type" input = Some x
       ∧ ∀ k : MessageType.t, x ≠ VString (MessageType.literal k).

(** "[content] is absent or not text". *)
Definition contentAbsentOrNotText (input : value) : Prop :=
  ∀ s : string, field "content" input ≠ Some (VString s).

(** "[message] is absent or not text". *)
Definition messageAbsentOrNotText (input : value) : Prop :=
  ∀ s : string, field "message" input ≠ Some (VString s).

(** "[casesIndexed] is missing, negative, or non-integral"; a property that
    holds something other than a number counts as missing. *)
Definition countMissingNegativeOrFractional (input : value) : Prop :=
  (∀ n : number, field "casesIndexed" input ≠ Some (VNumber n))
  ∨ ∃ n : number, field "casesIndexed" input = Some (VNumber n)
       ∧ ((n <? 0)%float = true ∨ Number_isInteger n = false).

(** ** Facts about the declared types *)

Lemma Role_of_string_literal (r : Role.t) :
  Role.of_string (Role.literal r) = Some r.
Proof. by destruct r. Qed.

Lemma Role_of_string_Some (s : string) (r : Role.t) :
  Role.of_string s = Some r → s = Role.literal r.
Proof.
  unfold Role.of_string. repeat case_decide; intros [= <-]; by subst.
Qed.

Lemma Role_literal_inj (r r' : Role.t) :
  Role.literal r = Role.literal r' → r = r'.
Proof.
  intros H. apply (f_equal Role.of_string) in H.
  rewrite !Role_of_string_literal in H. by injection H.
Qed.

Lemma Role_literal_closed (r : Role.t) :
  Role.literal r ∈ ["user"; "bot"; "system"].
Proof. destruct r; set_solver. Qed.

Lemma MessageType_of_string_literal (k : MessageType.t) :
  MessageType.of_string (MessageType.literal k) = Some k.
Proof. by destruct k. Qed.

Lemma MessageType_of_string_Some (s : string) (k : MessageType.t) :
  MessageType.of_string s = Some k → s = MessageType.literal k.
Proof.
  unfold MessageType.of_string. repeat case_decide; intros [= <-]; by subst.
Qed.

Lemma MessageType_literal_inj (k k' : MessageType.t) :
  MessageType.literal k = MessageType.literal k' → k = k'.
Proof.
  intros H. apply (f_equal MessageType.of_string) in H.
  rewrite !MessageType_of_string_literal in H. by injection H.
Qed.

Lemma MessageType_literal_closed (k : MessageType.t) :
  MessageType.literal k ∈ ["apology"; "rule-answer"; "system"].
Proof. destruct k; set_solver. Qed.

Lemma isRole_spec (v : value) :
  isRole v = true ↔ ∃ r, v = VString (Role.literal r).
Proof.
  split.
  - destruct v as [| | |s| |]; try discriminate. cbn.
    intros [r Hr]%bool_decide_eq_true. exists r.
    by rewrite (Role_of_string_Some _ _ Hr).
  - intros [r ->]. cbn. by rewrite Role_of_string_literal.
Qed.

Lemma isMessageType_spec (v : value) :
  isMessageType v = true ↔ ∃ k, v = VString (MessageType.literal k).
Proof.
  split.
  - destruct v as [| | |s| |]; try discriminate. cbn.
    intros [k Hk]%bool_decide_eq_true. exists k.
    by rewrite (MessageType_of_string_Some _ _ Hk).
  - intros [k ->]. cbn. by rewrite MessageType_of_string_literal.
Qed.

Lemma isString_spec (v : value) : isString v = true ↔ ∃ s, v = VString s.
Proof. split; [destruct v; try discriminate; eauto | by intros [s ->]]. Qed.

Lemma isNumber_spec (v : value) : isNumber v = true ↔ ∃ n, v = VNumber n.
Proof. split; [destruct v; try discriminate; eauto | by intros [n ->]]. Qed.

(** The properties of the two object literals. *)

Lemma field_role_toJSON (m : ChatMessage) :
  field "role" (ChatMessage_toJSON m) = Some (VString (Role.literal (role m))).
Proof. cbn [field ChatMessage_toJSON]. by rewrite lookup_insert_eq. Qed.

Lemma field_content_toJSON (m : ChatMessage) :
  field "content" (ChatMessage_toJSON m) = Some (VString (content m)).
Proof.
  cbn [field ChatMessage_toJSON].
  rewrite lookup_insert_ne by done. by rewrite lookup_insert_eq.
Qed.

Lemma field_type_toJSON (m : ChatMessage) :
  field "type" (ChatMessage_toJSON m)
  = (λ k, VString (MessageType.literal k)) <$> type m.
Proof.
  cbn [field ChatMessage_toJSON].
  rewrite !lookup_insert_ne by done.
  destruct (type m); cbn; [by rewrite lookup_singleton_eq | by rewrite lookup_empty].
Qed.

Lemma field_message_toJSON (u : UploadResponse) :
  field "message" (UploadResponse_toJSON u) = Some (VString (message u)).
Proof. cbn [field UploadResponse_toJSON]. by rewrite lookup_insert_eq. Qed.

Lemma field_casesIndexed_toJSON (u : UploadResponse) :
  field "casesIndexed" (UploadResponse_toJSON u)
  = Some (VNumber (casesIndexed u)).
Proof.
  cbn [field UploadResponse_toJSON].
  rewrite lookup_insert_ne by done. by rewrite lookup_singleton_eq.
Qed.

(** Every record is a value of its interface. *)

Lemma ChatMessage_toJSON_typed (m : ChatMessage) :
  isChatMessage (ChatMessage_toJSON m) = true.
Proof.
  unfold isChatMessage, required, optional.
  rewrite field_role_toJSON, field_content_toJSON, field_type_toJSON.
  cbn. rewrite Role_of_string_literal.
  destruct (type m); cbn; [by rewrite MessageType_of_string_literal | done].
Qed.

Lemma UploadResponse_toJSON_typed (u : UploadResponse) :
  isUploadResponse (UploadResponse_toJSON u) = true.
Proof.
  unfold isUploadResponse, required.
  by rewrite field_message_toJSON, field_casesIndexed_toJSON.
Qed.

(** A value of an interface type is an object with the declared properties. *)

Lemma isChatMessage_spec (v : value) :
  isChatMessage v = true ↔
  ∃ (r : Role.t) (c : string) (k : option MessageType.t),
    isObject v = true
    ∧ field "role" v = Some (VString (Role.literal r))
    ∧ field "content" v = Some (VString c)
    ∧ field "type" v = (λ k, VString (MessageType.literal k)) <$> k.
Proof.
  unfold isChatMessage, required, optional. split.
  - intros [[[Ho Hr]%andb_prop Hc]%andb_prop Hk]%andb_prop.
    destruct (field "role" v) as [x|]; [|done].
    apply isRole_spec in Hr as [r ->].
    destruct (field "content" v) as [y|]; [|done].
    apply isString_spec in Hc as [c ->].
    destruct (field "type" v) as [z|].
    + apply isMessageType_spec in Hk as [k ->]. by exists r, c, (Some k).
    + by exists r, c, None.
  - intros (r & c & k & -> & -> & -> & ->). cbn.
    rewrite Role_of_string_literal.
    destruct k; cbn; [by rewrite MessageType_of_string_literal | done].
Qed.

Lemma isUploadResponse_spec (v : value) :
  isUploadResponse v = true ↔
  ∃ (s : string) (n : number),
    isObject v = true
    ∧ field "message" v = Some (VString s)
    ∧ field "casesIndexed" v = Some (VNumber n).
Proof.
  unfold isUploadResponse, required. split.
  - intros [[Ho Hs]%andb_prop Hn]%andb_prop.
    destruct (field "message" v) as [x|]; [|done].
    apply isString_spec in Hs as [s ->].
    destruct (field "casesIndexed" v) as [y|]; [|done].
    apply isNumber_spec in Hn as [n ->]. by exists s, n.
  - by intros (s & n & -> & -> & ->).
Qed.

(** ** The claims about the declared types *)

(** C4.  Every value of type [ChatMessage] has a [role] property holding one
    of the three literals [user], [bot], [system], and it holds exactly one:
    there is one member [r] of [Role] whose literal is the value of the
    property, and no other member's literal is. *)
Theorem ChatMessage_role_closed (v : value) :
  isChatMessage v = true →
  ∃ r : Role.t,
    field "role" v = Some (VString (Role.literal r))
    ∧ Role.literal r ∈ ["user"; "bot"; "system"]
    ∧ ∀ r' : Role.t,
        field "role" v = Some (VString (Role.literal r')) → r' = r.
Proof.
  intros (r & c & k & _ & Hr & _)%isChatMessage_spec.
  exists r. split; [done|]. split; [apply Role_literal_closed|].
  intros r' Hr'. rewrite Hr in Hr'. injection Hr' as Heq.
  symmetry. by apply Role_literal_inj.
Qed.

Lemma ChatMessage_role_closed_witness :
  let v := ChatMessage_toJSON
             {| role := Role.bot; content := "Sorry, I don't know.";
                type := Some MessageType.apology |} in
  ∃ r : Role.t,
    field "role" v = Some (VString (Role.literal r))
    ∧ Role.literal r ∈ ["user"; "bot"; "system"]
    ∧ ∀ r' : Role.t,
        field "role" v = Some (VString (Role.literal r')) → r' = r.
Proof. intros v. apply (ChatMessage_role_closed v). reflexivity. Defined.

(** C5.  Every value of type [ChatMessage] either has no [type] property or
    has one holding one of the three literals [apology], [rule-answer],
    [system]: the property is the image of exactly one optional tag, so an
    absent tag is told apart from each present one, and the present ones
    from each other. *)
Theorem ChatMessage_type_optional_closed (v : value) :
  isChatMessage v = true →
  ∃ k : option MessageType.t,
    field "type" v = (λ k, VString (MessageType.literal k)) <$> k
    ∧ (k = None ↔ field "type" v = None)
    ∧ (∀ t, k = Some t →
            MessageType.literal t ∈ ["apology"; "rule-answer"; "system"])
    ∧ ∀ k' : option MessageType.t,
        field "type" v = (λ k, VString (MessageType.literal k)) <$> k' →
        k' = k.
Proof.
  intros (r & c & k & _ & _ & _ & Hk)%isChatMessage_spec.
  exists k. split; [done|]. split; [|split].
  - rewrite Hk. by destruct k.
  - intros t _. apply MessageType_literal_closed.
  - intros k' Hk'. rewrite Hk in Hk'.
    destruct k as [t|], k' as [t'|]; cbn in Hk'; try done.
    injection Hk' as Heq. f_equal. symmetry. by apply MessageType_literal_inj.
Qed.

Lemma ChatMessage_type_optional_closed_witness :
  let v := ChatMessage_toJSON
             {| role := Role.user; content := "hello"; type := None |} in
  ∃ k : option MessageType.t,
    field "type" v = (λ k, VString (MessageType.literal k)) <$> k
    ∧ (k = None ↔ field "type" v = None)
    ∧ (∀ t, k = Some t →
            MessageType.literal t ∈ ["apology"; "rule-answer"; "system"])
    ∧ ∀ k' : option MessageType.t,
        field "type" v = (λ k, VString (MessageType.literal k)) <$> k' →
        k' = k.
Proof.
  intros v. apply (ChatMessage_type_optional_closed v). reflexivity.
Defined.

(** An empty tag is not an absent tag: it is a present value outside the
    closed set, and the object is not a [ChatMessage]. *)
Example empty_type_is_not_absent :
  isChatMessage
    (VObject (<["role" := VString "bot"]>
                (<["content" := VString "hi"]> {["type" := VString ""]})))
  = false.
Proof. reflexivity. Qed.

(** C1, as stated, fails: [{message: "No cases found.", casesIndexed: -1}]
    has type [UploadResponse], and its count is not a non-negative
    integer. *)
Lemma UploadResponse_admits_negative_count :
  let v := UploadResponse_toJSON
             {| message := "No cases found."; casesIndexed := (-1)%float |} in
  isUploadResponse v = true ∧ ¬ countInvariant v.
Proof.
  intros v. split; [reflexivity|].
  intros (n & Hn & Hc). unfold v in Hn.
  rewrite field_casesIndexed_toJSON in Hn. injection Hn as <-.
  vm_compute in Hc. discriminate Hc.
Qed.

(** Nor need the count be integral. *)
Example UploadResponse_admits_fractional_count :
  let v := UploadResponse_toJSON
             {| message := "Indexed."; casesIndexed := 2.5%float |} in
  isUploadResponse v = true ∧ isCount 2.5%float = false.
Proof. split; reflexivity. Qed.

(** C1, amended.  A value has type [UploadResponse] exactly when it is an
    object whose [message] is a string and whose [casesIndexed] is a number;
    the type asks nothing more of the number, and every number occurs as the
    count of some [UploadResponse].  Zero is a count, and
    [{message: s, casesIndexed: 0}] is an [UploadResponse] satisfying the
    count invariant for every text [s]. *)
Theorem UploadResponse_count_is_any_number :
  (∀ v : value,
     isUploadResponse v = true ↔
     ∃ (s : string) (n : number),
       isObject v = true
       ∧ field "message" v = Some (VString s)
       ∧ field "casesIndexed" v = Some (VNumber n))
  ∧ (∀ n : number,
       ∃ v : value,
         isUploadResponse v = true
         ∧ field "casesIndexed" v = Some (VNumber n))
  ∧ ∀ s : string,
      let z := UploadResponse_toJSON
                 {| message := s; casesIndexed := 0%float |} in
      isUploadResponse z = true ∧ countInvariant z.
Proof.
  split; [exact isUploadResponse_spec|]. split.
  - intros n.
    exists (UploadResponse_toJSON {| message := ""; casesIndexed := n |}).
    split; [apply UploadResponse_toJSON_typed|].
    apply field_casesIndexed_toJSON.
  - intros s z. split; [apply UploadResponse_toJSON_typed|].
    exists 0%float. split; [apply field_casesIndexed_toJSON | reflexivity].
Qed.

(** C9.  The [message] of an [UploadResponse] is unconstrained text: for
    every string [s], the empty one included, and every count [n], the
    object [{message: s, casesIndexed: n}] has type [UploadResponse], keeps
    the invariant on the count, and carries [s] as it is. *)
Theorem UploadResponse_message_unconstrained (s : string) (n : number) :
  isCount n = true →
  let v := UploadResponse_toJSON {| message := s; casesIndexed := n |} in
  isUploadResponse v = true
  ∧ countInvariant v
  ∧ field "message" v = Some (VString s).
Proof.
  intros Hn v. split; [apply UploadResponse_toJSON_typed|]. split.
  - exists n. split; [apply field_casesIndexed_toJSON | done].
  - apply field_message_toJSON.
Qed.

Lemma UploadResponse_message_unconstrained_witness :
  isCount 3%float = true
  ∧ let v := UploadResponse_toJSON
               {| message := ""; casesIndexed := 3%float |} in
    isUploadResponse v = true
    ∧ countInvariant v
    ∧ field "message" v = Some (VString "").
Proof.
  split; [reflexivity|].
  apply (UploadResponse_message_unconstrained "" 3%float). reflexivity.
Defined.

(** C10.  The literal [system] belongs to [Role] and to the union of
    [type], and the interface relates the two properties in no way: the
    object with [role: "system"] and [type: "system"] is a [ChatMessage],
    as is the object of every role with every optional tag. *)
Theorem system_is_a_role_and_a_type :
  Role.literal Role.system = "system"
  ∧ MessageType.literal MessageType.system = "system"
  ∧ (∀ c : string,
       let v := ChatMessage_toJSON
                  {| role := Role.system; content := c;
                     type := Some MessageType.system |} in
       isChatMessage v = true
       ∧ field "role" v = Some (VString "system")
       ∧ field "type" v = Some (VString "system"))
  ∧ ∀ (r : Role.t) (c : string) (k : option MessageType.t),
      isChatMessage
        (ChatMessage_toJSON {| role := r; content := c; type := k |})
      = true.
Proof.
  split; [done|]. split; [done|]. split.
  - intros c v. split; [apply ChatMessage_toJSON_typed|].
    split; [apply field_role_toJSON | apply field_type_toJSON].
  - intros r c k. apply ChatMessage_toJSON_typed.
Qed.

(** ** Counts *)

(** Among the integral doubles, "not [>= 0]" and "negative" coincide (NaN,
    the one double that is neither, is not integral). *)
Lemma integer_not_count (n : number) :
  Number_isInteger n = true →
  (0 <=? n)%float = false ↔ (n <? 0)%float = true.
Proof.
  unfold Number_isInteger. intros Hint.
  rewrite FloatAxioms.leb_spec, FloatAxioms.ltb_spec.
  change (Prim2SF 0) with (S754_zero false).
  destruct (Prim2SF n) as [s|s| |s m e]; try discriminate Hint.
  - by cbn.
  - by destruct s; cbn.
Qed.

Lemma isCount_false (n : number) :
  isCount n = false ↔
  (n <? 0)%float = true ∨ Number_isInteger n = false.
Proof.
  unfold isCount. destruct (Number_isInteger n) eqn:Hint; cbn.
  - rewrite (integer_not_count n Hint). intuition congruence.
  - intuition congruence.
Qed.

(** ** What the readers return *)

Lemma elem_of_violated {A : Type} (e e' : ValidationError) (o : option A) :
  e ∈ violated e' o ↔ e = e' ∧ o = None.
Proof.
  destruct o; cbn.
  - rewrite elem_of_nil. intuition congruence.
  - rewrite list_elem_of_singleton. intuition congruence.
Qed.

Lemma readRole_Some (input : value) (r : Role.t) :
  readRole input = Some r ↔
  field "role" input = Some (VString (Role.literal r)).
Proof.
  unfold readRole. split.
  - destruct (field "role" input) as [[]|]; try done.
    by intros ->%Role_of_string_Some.
  - intros ->. apply Role_of_string_literal.
Qed.

Lemma readRole_None (input : value) :
  readRole input = None ↔ roleMissingOrInvalid input.
Proof.
  unfold roleMissingOrInvalid. split.
  - intros Hnone r Hr%readRole_Some. congruence.
  - intros Hall. destruct (readRole input) as [r|] eqn:Hr; [|done].
    apply readRole_Some in Hr. by destruct (Hall r).
Qed.

Lemma readContent_Some (input : value) (c : string) :
  readContent input = Some c ↔ field "content" input = Some (VString c).
Proof.
  unfold readContent. split.
  - destruct (field "content" input) as [[]|]; try done. by intros [= ->].
  - by intros ->.
Qed.

Lemma readContent_None (input : value) :
  readContent input = None ↔ contentAbsentOrNotText input.
Proof.
  unfold contentAbsentOrNotText. split.
  - intros Hnone c Hc%readContent_Some. congruence.
  - intros Hall. destruct (readContent input) as [c|] eqn:Hc; [|done].
    apply readContent_Some in Hc. by destruct (Hall c).
Qed.

Lemma readType_Some (input : value) (k : option MessageType.t) :
  readType input = Some k ↔
  field "type" input = (λ t, VString (MessageType.literal t)) <$> k.
Proof.
  unfold readType. split.
  - destruct (field "type" input) as [[| | |s| |]|]; try done.
    + destruct (MessageType.of_string s) as [t|] eqn:Ht; [|done].
      intros [= <-]. cbn. by rewrite (MessageType_of_string_Some _ _ Ht).
    + by intros [= <-].
  - intros ->. destruct k as [t|]; cbn; [|done].
    by rewrite MessageType_of_string_literal.
Qed.

Lemma readType_None (input : value) :
  readType input = None ↔ typePresentButInvalid input.
Proof.
  unfold typePresentButInvalid. split.
  - intros Hnone. destruct (field "type" input) as [x|] eqn:Hx.
    + exists x. split; [done|]. intros t ->.
      assert (readType input = Some (Some t)) by by apply readType_Some.
      congruence.
    + unfold readType in Hnone. by rewrite Hx in Hnone.
  - intros (x & Hx & Hall).
    destruct (readType input) as [k|] eqn:Hk; [|done].
    apply readType_Some in Hk. rewrite Hx in Hk.
    destruct k as [t|]; [|done]. injection Hk as ->. by destruct (Hall t).
Qed.

Lemma readMessage_Some (input : value) (s : string) :
  readMessage input = Some s ↔ field "message" input = Some (VString s).
Proof.
  unfold readMessage. split.
  - destruct (field "message" input) as [[]|]; try done. by intros [= ->].
  - by intros ->.
Qed.

Lemma readMessage_None (input : value) :
  readMessage input = None ↔ messageAbsentOrNotText input.
Proof.
  unfold messageAbsentOrNotText. split.
  - intros Hnone s Hs%readMessage_Some. congruence.
  - intros Hall. destruct (readMessage input) as [s|] eqn:Hs; [|done].
    apply readMessage_Some in Hs. by destruct (Hall s).
Qed.

Lemma readCount_Some (input : value) (n : number) :
  readCount input = Some n ↔
  field "casesIndexed" input = Some (VNumber n) ∧ isCount n = true.
Proof.
  unfold readCount. split.
  - destruct (field "casesIndexed" input) as [[| |n'| | |]|]; try done.
    destruct (isCount n') eqn:Hn'; [|done]. by intros [= <-].
  - by intros [-> ->].
Qed.

Lemma readCount_None (input : value) :
  readCount input = None ↔ countMissingNegativeOrFractional input.
Proof.
  unfold countMissingNegativeOrFractional, readCount.
  destruct (field "casesIndexed" input) as [x|];
    [|by split; [left|]].
  destruct x as [| |n| | |]; try by split; [left|].
  destruct (isCount n) eqn:Hn.
  - split; [done|]. intros [Hall | (n' & [= <-] & Hbad%isCount_false)].
    + by destruct (Hall n).
    + congruence.
  - split; [|done]. intros _. right. exists n. split; [done|].
    by apply isCount_false.
Qed.

(** ** What the validators return *)

Lemma validateChatMessage_Valid (input : value) (m : ChatMessage) :
  validateChatMessage input = Valid m ↔
  readRole input = Some (role m)
  ∧ readType input = Some (type m)
  ∧ readContent input = Some (content m).
Proof.
  unfold validateChatMessage. destruct m as [r c k]; cbn. split.
  - destruct (readRole input), (readType input), (readContent input);
      try done.
    by intros [= -> -> ->].
  - by intros (-> & -> & ->).
Qed.

Lemma validateChatMessage_failsWith (input : value) (e : ValidationError) :
  failsWith (validateChatMessage input) e ↔
  e ∈ violated InvalidRole (readRole input)
      ++ violated InvalidType (readType input)
      ++ violated MissingContent (readContent input).
Proof.
  unfold validateChatMessage.
  destruct (readRole input), (readType input), (readContent input);
    cbn; try done.
  by rewrite elem_of_nil.
Qed.

Lemma validateChatMessage_succeeds (input : value) :
  succeeds (validateChatMessage input) ↔
  readRole input ≠ None ∧ readType input ≠ None ∧ readContent input ≠ None.
Proof.
  unfold validateChatMessage.
  destruct (readRole input), (readType input), (readContent input);
    cbn; intuition congruence.
Qed.

Lemma validateUploadResponse_Valid (input : value) (u : UploadResponse) :
  validateUploadResponse input = Valid u ↔
  readCount input = Some (casesIndexed u)
  ∧ readMessage input = Some (message u).
Proof.
  unfold validateUploadResponse. destruct u as [s n]; cbn. split.
  - destruct (readCount input), (readMessage input); try done.
    by intros [= -> ->].
  - by intros (-> & ->).
Qed.

Lemma validateUploadResponse_failsWith (input : value) (e : ValidationError) :
  failsWith (validateUploadResponse input) e ↔
  e ∈ violated InvalidCount (readCount input)
      ++ violated MissingMessage (readMessage input).
Proof.
  unfold validateUploadResponse.
  destruct (readCount input), (readMessage input); cbn; try done.
  by rewrite elem_of_nil.
Qed.

Lemma validateUploadResponse_succeeds (input : value) :
  succeeds (validateUploadResponse input) ↔
  readCount input ≠ None ∧ readMessage input ≠ None.
Proof.
  unfold validateUploadResponse.
  destruct (readCount input), (readMessage input);
    cbn; intuition congruence.
Qed.

(** Re-reading the object literal of a record gives the record back. *)

Lemma validateChatMessage_toJSON (m : ChatMessage) :
  validateChatMessage (ChatMessage_toJSON m) = Valid m.
Proof.
  apply validateChatMessage_Valid. split; [|split].
  - apply readRole_Some, field_role_toJSON.
  - apply readType_Some, field_type_toJSON.
  - apply readContent_Some, field_content_toJSON.
Qed.

Lemma validateUploadResponse_toJSON (u : UploadResponse) :
  isCount (casesIndexed u) = true →
  validateUploadResponse (UploadResponse_toJSON u) = Valid u.
Proof.
  intros Hn. apply validateUploadResponse_Valid. split.
  - apply readCount_Some. split; [apply field_casesIndexed_toJSON | done].
  - apply readMessage_Some, field_message_toJSON.
Qed.

(** ** The claims about the validators *)

(** C2.  For every input, [validateChatMessage] fails with [InvalidRole]
    exactly when [role] is missing or not one of [user], [bot], [system];
    with [InvalidType] exactly when [type] is present but not one of
    [apology], [rule-answer], [system]; with [MissingContent] exactly when
    [content] is absent or not text; and it succeeds exactly when none of
    the three conditions holds. *)
Theorem validateChatMessage_errors (input : value) :
  (failsWith (validateChatMessage input) InvalidRole
   ↔ roleMissingOrInvalid input)
  ∧ (failsWith (validateChatMessage input) InvalidType
     ↔ typePresentButInvalid input)
  ∧ (failsWith (validateChatMessage input) MissingContent
     ↔ contentAbsentOrNotText input)
  ∧ (succeeds (validateChatMessage input)
     ↔ ¬ roleMissingOrInvalid input
       ∧ ¬ typePresentButInvalid input
       ∧ ¬ contentAbsentOrNotText input).
Proof.
  rewrite <- readRole_None, <- readType_None, <- readContent_None.
  rewrite !validateChatMessage_failsWith, validateChatMessage_succeeds.
  rewrite !elem_of_app, !elem_of_violated.
  repeat split; intuition congruence.
Qed.

(** C3.  For every input, [validateUploadResponse] fails with
    [InvalidCount] exactly when [casesIndexed] is missing, negative or
    non-integral, and with [MissingMessage] exactly when [message] is absent
    or not text; it succeeds exactly when neither condition holds. *)
Theorem validateUploadResponse_errors (input : value) :
  (failsWith (validateUploadResponse input) InvalidCount
   ↔ countMissingNegativeOrFractional input)
  ∧ (failsWith (validateUploadResponse input) MissingMessage
     ↔ messageAbsentOrNotText input)
  ∧ (succeeds (validateUploadResponse input)
     ↔ ¬ countMissingNegativeOrFractional input
       ∧ ¬ messageAbsentOrNotText input).
Proof.
  rewrite <- readCount_None, <- readMessage_None.
  rewrite !validateUploadResponse_failsWith, validateUploadResponse_succeeds.
  rewrite !elem_of_app, !elem_of_violated.
  repeat split; intuition congruence.
Qed.

(** The scenarios of the specification. *)

Example scenario_negative_count :
  validateUploadResponse
    (VObject (<["message" := VString "No cases found."]>
                {["casesIndexed" := VNumber (-1)%float]}))
  = Rejected [InvalidCount].
Proof. reflexivity. Qed.

Example scenario_fractional_count :
  validateUploadResponse
    (VObject (<["message" := VString "Indexed."]>
                {["casesIndexed" := VNumber 2.5%float]}))
  = Rejected [InvalidCount].
Proof. reflexivity. Qed.

Example scenario_three_cases :
  validateUploadResponse
    (VObject (<["message" := VString "Indexed 3 new cases."]>
                {["casesIndexed" := VNumber 3%float]}))
  = Valid {| message := "Indexed 3 new cases."; casesIndexed := 3%float |}.
Proof. reflexivity. Qed.

(** A zero count is accepted, and an acceptance is not a rejection. *)
Example scenario_zero_count :
  validateUploadResponse
    (VObject (<["message" := VString "Nothing new."]>
                {["casesIndexed" := VNumber 0%float]}))
  = Valid {| message := "Nothing new."; casesIndexed := 0%float |}
  ∧ ∀ errors,
      Valid {| message := "Nothing new."; casesIndexed := 0%float |}
      ≠ Rejected errors.
Proof. split; [reflexivity | discriminate]. Qed.

Example scenario_no_role :
  validateChatMessage (VObject {["content" := VString "hello"]})
  = Rejected [InvalidRole].
Proof. reflexivity. Qed.

Example scenario_nothing_usable :
  validateChatMessage (VObject {["type" := VNull]})
  = Rejected [InvalidRole; InvalidType; MissingContent].
Proof. reflexivity. Qed.

Example scenario_apology :
  validateChatMessage
    (VObject (<["role" := VString "bot"]>
                (<["content" := VString "Sorry, I don't know."]>
                   {["type" := VString "apology"]})))
  = Valid {| role := Role.bot; content := "Sorry, I don't know.";
             type := Some MessageType.apology |}.
Proof. reflexivity. Qed.

(** C6.  Every tag goes with every role: an input whose [role] is any of
    the three roles, whose [content] is text and whose [type] is any of the
    three tags is accepted, whatever else it carries, and the result holds
    that role, content and tag.  In particular [role: "user"] with
    [type: "apology"] or [type: "rule-answer"] is accepted. *)
Theorem validateChatMessage_any_role_any_type
    (input : value) (r : Role.t) (c : string) (k : MessageType.t) :
  field "role" input = Some (VString (Role.literal r)) →
  field "content" input = Some (VString c) →
  field "type" input = Some (VString (MessageType.literal k)) →
  validateChatMessage input
  = Valid {| role := r; content := c; type := Some k |}.
Proof.
  intros Hr Hc Hk. apply validateChatMessage_Valid. cbn. split; [|split].
  - by apply readRole_Some.
  - by apply readType_Some.
  - by apply readContent_Some.
Qed.

Lemma validateChatMessage_any_role_any_type_witness :
  let input :=
    VObject (<["role" := VString "user"]>
               (<["content" := VString "I am sorry"]>
                  (<["type" := VString "apology"]>
                     {["sentAt" := VNumber 17%float]}))) in
  validateChatMessage input
  = Valid {| role := Role.user; content := "I am sorry";
             type := Some MessageType.apology |}.
Proof.
  intros input.
  apply (validateChatMessage_any_role_any_type
           input Role.user "I am sorry" MessageType.apology);
    reflexivity.
Defined.

Example user_rule_answer_accepted :
  succeeds
    (validateChatMessage
       (VObject (<["role" := VString "user"]>
                   (<["content" := VString "Rule 4."]>
                      {["type" := VString "rule-answer"]})))).
Proof. exact I. Qed.

(** C7.  With [type] absent, an input whose [role] is any of the three
    roles and whose [content] is any text, the empty string included, is
    accepted; the returned message has that content unchanged and no
    [type]. *)
Theorem validateChatMessage_without_type
    (input : value) (r : Role.t) (c : string) :
  field "role" input = Some (VString (Role.literal r)) →
  field "content" input = Some (VString c) →
  field "type" input = None →
  ∃ m : ChatMessage,
    validateChatMessage input = Valid m
    ∧ role m = r ∧ content m = c ∧ type m = None.
Proof.
  intros Hr Hc Hk. exists {| role := r; content := c; type := None |}.
  split; [|done]. apply validateChatMessage_Valid. cbn. split; [|split].
  - by apply readRole_Some.
  - by apply readType_Some.
  - by apply readContent_Some.
Qed.

Lemma validateChatMessage_without_type_witness :
  let input :=
    VObject (<["role" := VString "user"]> {["content" := VString "hello"]}) in
  ∃ m : ChatMessage,
    validateChatMessage input = Valid m
    ∧ role m = Role.user ∧ content m = "hello" ∧ type m = None.
Proof.
  intros input.
  apply (validateChatMessage_without_type input Role.user "hello");
    reflexivity.
Defined.

Example empty_content_accepted :
  validateChatMessage
    (VObject (<["role" := VString "system"]> {["content" := VString ""]}))
  = Valid {| role := Role.system; content := ""; type := None |}.
Proof. reflexivity. Qed.

(** C8.  Validation is idempotent: the message [validateChatMessage]
    returns, written back as an object, validates to the same message, and
    the response [validateUploadResponse] returns validates to the same
    response. *)
Theorem validation_idempotent :
  (∀ (input : value) (m : ChatMessage),
     validateChatMessage input = Valid m →
     validateChatMessage (ChatMessage_toJSON m) = Valid m)
  ∧ (∀ (input : value) (u : UploadResponse),
       validateUploadResponse input = Valid u →
       validateUploadResponse (UploadResponse_toJSON u) = Valid u).
Proof.
  split.
  - intros input m _. apply validateChatMessage_toJSON.
  - intros input u [Hn _]%validateUploadResponse_Valid.
    apply validateUploadResponse_toJSON.
    by apply readCount_Some in Hn as [_ Hn].
Qed.

Lemma validation_idempotent_witness :
  let m := {| role := Role.bot; content := "Rule 7 applies.";
              type := Some MessageType.rule_answer |} in
  let u := {| message := "Indexed 3 new cases.";
              casesIndexed := 3%float |} in
  validateChatMessage (ChatMessage_toJSON m) = Valid m
  ∧ validateUploadResponse (UploadResponse_toJSON u) = Valid u.
Proof.
  intros m u. split.
  - apply (proj1 validation_idempotent
             (VObject (<["role" := VString "bot"]>
                         (<["content" := VString "Rule 7 applies."]>
                            (<["type" := VString "rule-answer"]>
                               {["debug" := VBool true]}))))
             m).
    reflexivity.
  - apply (proj2 validation_idempotent
             (VObject (<["casesIndexed" := VNumber 3%float]>
                         (<["message" := VString "Indexed 3 new cases."]>
                            {["elapsedMs" := VNumber 12.5%float]})))
             u).
    reflexivity.
Defined.

(** ** Further properties of the declarations *)

Lemma field_other_ChatMessage_toJSON (m : ChatMessage) (k : string) :
  k ≠ "role" → k ≠ "content" → k ≠ "type" →
  field k (ChatMessage_toJSON m) = None.
Proof.
  intros ? ? ?. cbn [field ChatMessage_toJSON].
  rewrite !lookup_insert_ne by done.
  destruct (type m); [by rewrite lookup_singleton_ne | apply lookup_empty].
Qed.

Lemma field_other_UploadResponse_toJSON (u : UploadResponse) (k : string) :
  k ≠ "message" → k ≠ "casesIndexed" →
  field k (UploadResponse_toJSON u) = None.
Proof.
  intros ? ?. cbn [field UploadResponse_toJSON].
  rewrite lookup_insert_ne by done. by rewrite lookup_singleton_ne.
Qed.

(** X1.  The two unions of literals, [Role] and the union of [type], have
    exactly one literal in common: a role and a tag are written the same
    way only when both are [system]. *)
Theorem Role_and_type_share_only_system (r : Role.t) (k : MessageType.t) :
  Role.literal r = MessageType.literal k
  ↔ r = Role.system ∧ k = MessageType.system.
Proof.
  split.
  - by destruct r, k.
  - by intros [-> ->].
Qed.

(** X2.  Whether an object is a [ChatMessage] depends on its [role],
    [content] and [type] properties alone: two objects that agree on these
    three are both of the type or both not, whatever else they carry. *)
Theorem isChatMessage_declared_only (o o' : gmap string value) :
  o !! "role" = o' !! "role" →
  o !! "content" = o' !! "content" →
  o !! "type" = o' !! "type" →
  isChatMessage (VObject o) = isChatMessage (VObject o').
Proof.
  intros Hr Hc Hk. unfold isChatMessage, required, optional. cbn.
  by rewrite Hr, Hc, Hk.
Qed.

Lemma isChatMessage_declared_only_witness :
  let o : gmap string value :=
    <["role" := VString "bot"]> {["content" := VString "Rule 2."]} in
  let o' : gmap string value :=
    <["id" := VNumber 41%float]>
      (<["role" := VString "bot"]>
         (<["content" := VString "Rule 2."]> {["pinned" := VBool true]})) in
  isChatMessage (VObject o) = isChatMessage (VObject o').
Proof.
  intros o o'. apply (isChatMessage_declared_only o o'); reflexivity.
Defined.

(** X3.  Whether an object is an [UploadResponse] depends on its [message]
    and [casesIndexed] properties alone. *)
Theorem isUploadResponse_declared_only (o o' : gmap string value) :
  o !! "message" = o' !! "message" →
  o !! "casesIndexed" = o' !! "casesIndexed" →
  isUploadResponse (VObject o) = isUploadResponse (VObject o').
Proof.
  intros Hs Hn. unfold isUploadResponse, required. cbn.
  by rewrite Hs, Hn.
Qed.

Lemma isUploadResponse_declared_only_witness :
  let o : gmap string value :=
    <["message" := VString "Indexed."]> {["casesIndexed" := VNumber 2%float]} in
  let o' : gmap string value :=
    <["message" := VString "Indexed."]>
      (<["casesIndexed" := VNumber 2%float]> {["tookMs" := VNumber 8%float]}) in
  isUploadResponse (VObject o) = isUploadResponse (VObject o').
Proof.
  intros o o'. apply (isUploadResponse_declared_only o o'); reflexivity.
Defined.



(** X5.  Both properties of [UploadResponse] are required: an object
    without [message], or without [casesIndexed], is never an
    [UploadResponse], whatever the object was. *)
Theorem UploadResponse_both_required (o : gmap string value) :
  isUploadResponse (VObject (delete "message" o)) = false
  ∧ isUploadResponse (VObject (delete "casesIndexed" o)) = false.
Proof.
  unfold isUploadResponse, required. cbn.
  rewrite !lookup_delete_eq. by rewrite andb_false_r.
Qed.

(** X6.  The object literals of the two interfaces are never confused: the
    object of a [ChatMessage] record is not an [UploadResponse], and the
    object of an [UploadResponse] record is not a [ChatMessage]. *)
Theorem literals_not_confused (m : ChatMessage) (u : UploadResponse) :
  isUploadResponse (ChatMessage_toJSON m) = false
  ∧ isChatMessage (UploadResponse_toJSON u) = false.
Proof.
  split.
  - unfold isUploadResponse, required.
    rewrite (field_other_ChatMessage_toJSON m "message") by done.
    by rewrite andb_false_r.
  - unfold isChatMessage, required.
    rewrite (field_other_UploadResponse_toJSON u "role") by done.
    done.
Qed.

(** X7.  Yet the two interfaces are not disjoint: for every [ChatMessage]
    record and every [UploadResponse] record there is one object that has
    both types and carries the declared properties of both. *)
Theorem interfaces_overlap (m : ChatMessage) (u : UploadResponse) :
  ∃ v : value,
    isChatMessage v = true
    ∧ isUploadResponse v = true
    ∧ field "role" v = field "role" (ChatMessage_toJSON m)
    ∧ field "content" v = field "content" (ChatMessage_toJSON m)
    ∧ field "type" v = field "type" (ChatMessage_toJSON m)
    ∧ field "message" v = field "message" (UploadResponse_toJSON u)
    ∧ field "casesIndexed" v
      = field "casesIndexed" (UploadResponse_toJSON u).
Proof.
  pose (fields := λ o : gmap string value,
          <["message" := VString (message u)]>
            (<["casesIndexed" := VNumber (casesIndexed u)]> o)).
  exists (match ChatMessage_toJSON m with
          | VObject o => VObject (fields o)
          | x => x
          end).
  cbn [ChatMessage_toJSON].
  set (o := <["role" := _]> _).
  assert (∀ k, k ≠ "message" → k ≠ "casesIndexed" →
               field k (VObject (fields o)) = field k (VObject o)) as Hframe.
  { intros k ? ?. unfold fields. cbn. by rewrite !lookup_insert_ne. }
  assert (field "message" (VObject (fields o))
          = Some (VString (message u))) as Hs.
  { unfold fields. cbn. by rewrite lookup_insert_eq. }
  assert (field "casesIndexed" (VObject (fields o))
          = Some (VNumber (casesIndexed u))) as Hn.
  { unfold fields. cbn. rewrite lookup_insert_ne by done.
    by rewrite lookup_insert_eq. }
  pose proof (ChatMessage_toJSON_typed m) as Hm.
  change (isChatMessage (VObject o) = true) in Hm.
  split; [|split].
  - unfold isChatMessage, required, optional in *.
    by rewrite !Hframe by done.
  - unfold isUploadResponse, required. by rewrite Hs, Hn.
  - rewrite !Hframe by done.
    rewrite field_message_toJSON, field_casesIndexed_toJSON. done.
Qed.

(** X8.  The record and the predicate describe the same values: a value of
    type [ChatMessage] determines exactly one [ChatMessage] record, the one
    whose object literal has the same [role], [content] and [type]. *)
Theorem ChatMessage_record_of_value (v : value) :
  isChatMessage v = true →
  ∃ m : ChatMessage,
    (field "role" v = field "role" (ChatMessage_toJSON m)
     ∧ field "content" v = field "content" (ChatMessage_toJSON m)
     ∧ field "type" v = field "type" (ChatMessage_toJSON m))
    ∧ ∀ m' : ChatMessage,
        field "role" v = field "role" (ChatMessage_toJSON m') →
        field "content" v = field "content" (ChatMessage_toJSON m') →
        field "type" v = field "type" (ChatMessage_toJSON m') →
        m' = m.
Proof.
  intros (r & c & k & _ & Hr & Hc & Hk)%isChatMessage_spec.
  exists {| role := r; content := c; type := k |}.
  rewrite Hr, Hc, Hk. split.
  - by rewrite field_role_toJSON, field_content_toJSON, field_type_toJSON.
  - intros [r' c' k'].
    rewrite field_role_toJSON, field_content_toJSON, field_type_toJSON. cbn.
    intros [= Hr']%eq_sym [= ->] Hk'. apply Role_literal_inj in Hr' as ->.
    f_equal. destruct k as [t|], k' as [t'|]; cbn in Hk'; try done.
    injection Hk' as Ht%eq_sym. by apply MessageType_literal_inj in Ht as ->.
Qed.

Lemma ChatMessage_record_of_value_witness :
  let v :=
    VObject (<["role" := VString "bot"]>
               (<["content" := VString "Rule 2."]>
                  (<["type" := VString "rule-answer"]>
                     {["id" := VNumber 41%float]}))) in
  ∃ m : ChatMessage,
    (field "role" v = field "role" (ChatMessage_toJSON m)
     ∧ field "content" v = field "content" (ChatMessage_toJSON m)
     ∧ field "type" v = field "type" (ChatMessage_toJSON m))
    ∧ ∀ m' : ChatMessage,
        field "role" v = field "role" (ChatMessage_toJSON m') →
        field "content" v = field "content" (ChatMessage_toJSON m') →
        field "type" v = field "type" (ChatMessage_toJSON m') →
        m' = m.
Proof. intros v. apply (ChatMessage_record_of_value v). reflexivity. Defined.

(** X9.  Likewise a value of type [UploadResponse] determines exactly one
    [UploadResponse] record, the one whose object literal has the same
    [message] and [casesIndexed]. *)
Theorem UploadResponse_record_of_value (v : value) :
  isUploadResponse v = true →
  ∃ u : UploadResponse,
    (field "message" v = field "message" (UploadResponse_toJSON u)
     ∧ field "casesIndexed" v
       = field "casesIndexed" (UploadResponse_toJSON u))
    ∧ ∀ u' : UploadResponse,
        field "message" v = field "message" (UploadResponse_toJSON u') →
        field "casesIndexed" v
        = field "casesIndexed" (UploadResponse_toJSON u') →
        u' = u.
Proof.
  intros (s & n & _ & Hs & Hn)%isUploadResponse_spec.
  exists {| message := s; casesIndexed := n |}.
  rewrite Hs, Hn. split.
  - by rewrite field_message_toJSON, field_casesIndexed_toJSON.
  - intros [s' n'].
    rewrite field_message_toJSON, field_casesIndexed_toJSON. cbn.
    by intros [= ->] [= ->].
Qed.

Lemma UploadResponse_record_of_value_witness :
  let v :=
    VObject (<["message" := VString "Indexed."]>
               (<["casesIndexed" := VNumber (-1)%float]>
                  {["tookMs" := VNumber 8%float]})) in
  ∃ u : UploadResponse,
    (field "message" v = field "message" (UploadResponse_toJSON u)
     ∧ field "casesIndexed" v
       = field "casesIndexed" (UploadResponse_toJSON u))
    ∧ ∀ u' : UploadResponse,
        field "message" v = field "message" (UploadResponse_toJSON u') →
        field "casesIndexed" v
        = field "casesIndexed" (UploadResponse_toJSON u') →
        u' = u.
Proof.
  intros v. apply (UploadResponse_record_of_value v). reflexivity.
Defined.
